(** * ts-res: a Rust-style [Result] for TypeScript

    A shallow embedding of [src/lib/main.ts] (the current library and the
    earlier variant kept in the same file) and of the types of
    [lib/types.ts], together with the properties of the four accessors
    [throw], [or], [else], [and] and of the constructors [Ok] and [Err].

    JavaScript functions are embedded as computations over an explicit
    world: a store of objects addressed by reference (so that aliasing and
    in-place mutation of an [Error] object are visible) and the outcome of
    a call is either a returned value or a raised one. An object records
    which of its properties cannot be written, and the library's code is
    read in strict or in sloppy mode. *)

From stdpp Require Import gmap strings list.

Local Open Scope string_scope.

(** ** The JavaScript runtime the library needs *)

Module JS.

(** References to objects of the store. *)
Definition loc := positive.
Bind Scope positive_scope with loc.

(** Primitive values and references, as stored in object properties and
    as carried by a [throw] statement. *)
Inductive Value : Type :=
| VUndefined
| VBool (b : bool)
| VNum (n : Z)
| VStr (s : string)
| VRef (l : loc)
| VTypeError.

(** [VTypeError] is a [TypeError] that the engine makes when strict code
    assigns to a property that cannot be written. The program holds no
    reference to it beforehand and it is not kept in the store. *)

(** An object: the class it was built by, its own properties, the names
    that an assignment cannot write (a data property that is not writable,
    or an accessor with a getter only, own or inherited), and whether
    properties can be added. A frozen object is not extensible and all its
    own properties are read-only. Accessors with a setter, which run code
    of their own on assignment, are not represented. *)
Record Obj : Type := mkObj {
  proto : string;
  props : gmap string Value;
  readonly : gset string;
  extensible : bool
}.

(** Whether the code runs in strict mode (module code does) or in sloppy
    mode (a build without the strict directive). *)
Inductive Mode : Type := Strict | Sloppy.
Existing Class Mode.

(** The world: the object store, and the calls recorded so far by the
    mock functions of a test (see [mockFn]). *)
Record World (L : Type) : Type := mkWorld {
  heap : gmap loc Obj;
  calls : list L
}.
Arguments mkWorld {L} heap calls.
Arguments heap {L} w.
Arguments calls {L} w.

(** How a call ends: [return v] or [throw v]. *)
Inductive Outcome (A : Type) : Type :=
| Returned (a : A)
| Raised (v : Value).
Arguments Returned {A} a.
Arguments Raised {A} v.

Definition M (L A : Type) : Type := World L → Outcome A * World L.

Definition ret {L A} (a : A) : M L A := λ w, (Returned a, w).

Definition throw {L A} (v : Value) : M L A := λ w, (Raised v, w).

Definition bind {L A B} (c : M L A) (k : A → M L B) : M L B :=
  λ w, match c w with
       | (Returned a, w') => k a w'
       | (Raised v, w') => (Raised v, w')
       end.

Declare Scope js_scope.
Delimit Scope js_scope with js.
Notation "'let!' x ':=' c 'in' k" := (bind c (λ x, k))
  (at level 10, x name, c at level 100, k at level 200) : js_scope.
Notation "c >>> k" := (bind c (λ _, k))
  (at level 90, right associativity) : js_scope.

(** [new C(...)]: the object is stored at a reference that is not in use. *)
Definition alloc {L} (o : Obj) : M L loc :=
  λ w, let l := fresh (dom (heap w)) in
       (Returned l, mkWorld (<[l := o]> (heap w)) (calls w)).

(** The object [o] once [k] holds [v]. *)
Definition set_prop_obj (k : string) (v : Value) (o : Obj) : Obj :=
  mkObj (proto o) (<[k := v]> (props o)) (readonly o) (extensible o).

(** Whether the assignment [o.k = v] takes effect: [k] is not read-only,
    and [o] has [k] already or can be extended. *)
Definition can_write (o : Obj) (k : string) : bool :=
  bool_decide (k ∉ readonly o)
  && (extensible o || bool_decide (is_Some (props o !! k))).

(** [o.k = v] on the object at [l]. An assignment that cannot take effect
    raises a [TypeError] in strict code and does nothing in sloppy code. *)
Definition set_prop {md : Mode} {L} (l : loc) (k : string) (v : Value)
    : M L unit :=
  λ w, match heap w !! l with
       | Some o =>
           if can_write o k
           then (Returned tt,
                 mkWorld (alter (set_prop_obj k v) l (heap w)) (calls w))
           else match md with
                | Strict => (Raised VTypeError, w)
                | Sloppy => (Returned tt, w)
                end
       | None => (Returned tt, w)
       end.

(** [new Error(message)] with a string argument: an ordinary [Error]
    whose own [message] property is that string (own properties that
    depend on the engine, such as [stack], are left out). *)
Definition Error_obj (message : string) : Obj :=
  mkObj "Error" {[ "message" := VStr message ]} ∅ true.

Definition new_Error {L} (message : string) : M L loc :=
  alloc (Error_obj message).

(** Truthiness of a value of type [string | undefined]: [undefined] and
    the empty string are falsy. *)
Definition truthy (x : option string) : bool :=
  match x with
  | Some s => negb (String.eqb s "")
  | None => false
  end.

(** [x || y] where both sides have type [string | undefined]. *)
Definition lor_opt (x y : option string) : option string :=
  if truthy x then x else y.

(** [x || y] where [y] is a string. *)
Definition lor_str (x : option string) (y : string) : string :=
  match x with
  | Some s => if truthy x then s else y
  | None => y
  end.

(** A mock function in the manner of [jest.fn(impl)]: every call is
    recorded, then the implementation runs on the store. The
    implementation cannot reach the record of calls. *)
Definition mockFn {L A B} (tag : A → L)
    (impl : A → gmap loc Obj → Outcome B * gmap loc Obj) : A → M L B :=
  λ x w, let '(o, h) := impl x (heap w) in
         (o, mkWorld h (calls w ++ [tag x])).

(** Observations on the end of a call. *)
Definition returns {L A} (r : Outcome A * World L) : bool :=
  match r.1 with Returned _ => true | Raised _ => false end.

Definition raises {L A} (r : Outcome A * World L) : bool :=
  negb (returns r).

(** The [message] property of the object at [l], when it is a string. *)
Definition message_at (h : gmap loc Obj) (l : loc) : option string :=
  match h !! l with
  | Some o => match props o !! "message" with
              | Some (VStr s) => Some s
              | _ => None
              end
  | None => None
  end.

(** The message carried by what a call raised. *)
Definition raised_message {L A} (r : Outcome A * World L) : option string :=
  match r.1 with
  | Raised (VRef l) => message_at (heap r.2) l
  | _ => None
  end.

End JS.

Import JS.
Local Open Scope js_scope.

(** Module code is strict: a closed example that names no mode runs in
    strict mode. *)
#[global] Existing Instance Strict | 100.

(** ** [lib/types.ts] *)

Module Types.

(** [ErrType = string | Error | undefined | void]. An [Error] (or an
    object of a class that extends it) is a reference into the store. *)
Inductive ErrType : Type :=
| EUndefined
| EString (s : string)
| EError (l : loc).

(** [Result<T, E>]: [{ ok: true, data: T }] or [{ ok: false, error: E }].
    The four method fields hold the same four functions in every Result
    and are called with the Result itself as [this]. *)
Inductive Result (T : Type) : Type :=
| Success (data : T)
| Failure (error : ErrType).
Arguments Success {T} data.
Arguments Failure {T} error.

Definition ok {T} (r : Result T) : bool :=
  match r with Success _ => true | Failure _ => false end.

(** Field reads; a field the object does not have reads as absent. *)
Definition data {T} (r : Result T) : option T :=
  match r with Success d => Some d | Failure _ => None end.

Definition error {T} (r : Result T) : option ErrType :=
  match r with Success _ => None | Failure e => Some e end.

(** [typeof e]. *)
Definition typeof (e : ErrType) : string :=
  match e with
  | EUndefined => "undefined"
  | EString _ => "string"
  | EError _ => "object"
  end.

(** An error as the value a [throw] statement carries. *)
Definition to_value (e : ErrType) : Value :=
  match e with
  | EUndefined => VUndefined
  | EString s => VStr s
  | EError l => VRef l
  end.

(** An error of type [string | undefined] read at that type. *)
Definition as_string (e : ErrType) : option string :=
  match e with
  | EString s => Some s
  | _ => None
  end.

End Types.

Import Types.

(** ** [lib/main.ts], current version *)

Module Main.

Definition defaultMessage : string :=
  "There was an error! No specific error message was provided.".

(** [throwErr], the [throw] method. The test on [typeof this.error]
    splits the three shapes of [ErrType]; in the last one [this.error]
    is an [Error] object. *)
Definition throwErr {md : Mode} {L T} (this : Result T)
    (message : option string) : M L T :=
  match this with
  | Failure error =>
      match error with
      | EString _ | EUndefined =>
          let! e := new_Error
                      (lor_str (lor_opt message (as_string error))
                               defaultMessage) in
          throw (VRef e)
      | EError l =>
          match message with
          | Some m =>
              if truthy message then set_prop l "message" (VStr m) else ret tt
          | None => ret tt
          end >>>
          throw (to_value error)
      end
  | Success data => ret data
  end.

(** [elseDo], the [else] method. *)
Definition elseDo {L T} (this : Result T) (callback : ErrType → M L T)
    : M L T :=
  match this with
  | Success data => ret data
  | Failure error => callback error
  end.

(** [or]. *)
Definition or {L T} (this : Result T) (orValue : T) : M L T :=
  match this with
  | Success data => ret data
  | Failure _ => ret orValue
  end.

(** [and]. What the callback returns is dropped, and a function that ends
    without [return] returns [undefined]. *)
Definition and {L T B} (this : Result T) (callback : T → M L B)
    : M L unit :=
  match this with
  | Success data => callback data >>> ret tt
  | Failure _ => ret tt
  end.

(** [Ok(data)] and [Ok()]. *)
Definition Ok {L T} (data : T) : M L (Result T) :=
  ret (Success data).

Definition Ok0 {L T} : M L (Result (option T)) :=
  Ok None.

(** [Err(error)] and [Err()]. *)
Definition Err {L T} (error : ErrType) : M L (Result T) :=
  ret (Failure error).

Definition Err0 {L T} : M L (Result T) :=
  Err EUndefined.

End Main.

(** ** [lib/main.ts], earlier version kept in the same file *)

Module Earlier.

Definition defaultMessage : string :=
  "There was an error! No specific error message was provided.".

Definition throwErr {L T} (this : Result T) (message : option string)
    : M L T :=
  match this with
  | Failure error =>
      match error with
      | EString _ | EUndefined =>
          let! e := new_Error
                      (lor_str (lor_opt message (as_string error))
                               defaultMessage) in
          throw (VRef e)
      | EError l => throw (to_value error)
      end
  | Success data => ret data
  end.

Definition elseDo {L T} (this : Result T) (callback : ErrType → M L T)
    : M L T :=
  match this with
  | Success data => ret data
  | Failure error => callback error
  end.

Definition Ok {L T} (data : T) : M L (Result T) :=
  ret (Success data).

Definition Err {L T} (error : ErrType) : M L (Result T) :=
  ret (Failure error).

End Earlier.

(** ** Worlds used by the examples *)

Definition world0 : World ErrType := mkWorld ∅ [].

(** One [Error] object, at reference 1. *)
Definition world1 (msg : string) : World ErrType :=
  mkWorld {[ 1%positive := Error_obj msg ]} [].



(** One [CustomError] object as in the tests, with an extra field. *)
Definition CustomError_obj (msg : string) (type : Z) : Obj :=
  mkObj "CustomError" {[ "message" := VStr msg; "errorType" := VNum type ]}
        ∅ true.

Definition world2 : World ErrType :=
  mkWorld {[ 1%positive := CustomError_obj "orig" 1;
             2%positive := Error_obj "other" ]} [].

(** ** The resolution of the raised message *)

(** The message as the specification words it: the override if one is
    given, else the string error if there is one, else the default. *)
Definition stated_message (message : option string) (error : ErrType)
    : string :=
  match message with
  | Some m => m
  | None =>
      match error with
      | EString s => s
      | _ => Main.defaultMessage
      end
  end.

(** The same, with an empty string counted as no string. *)
Definition nonempty (x : option string) : option string :=
  match x with
  | Some EmptyString => None
  | _ => x
  end.

Definition resolved_message (message : option string) (error : ErrType)
    : string :=
  match nonempty message with
  | Some m => m
  | None =>
      match nonempty (as_string error) with
      | Some s => s
      | None => Main.defaultMessage
      end
  end.

(** ** Notions used by the statements *)

(** What [and] makes of the end of its callback: a returned value is
    dropped, a raised one goes through. *)
Definition drop_result {B} (o : Outcome B) : Outcome unit :=
  match o with
  | Returned _ => Returned tt
  | Raised x => Raised x
  end.

(** A callback that returns on every argument and in every world. *)
Definition never_raises {L A B} (callback : A → M L B) : Prop :=
  ∀ x w, returns (callback x w) = true.

(** A Failure whose error is an [Error] object. *)
Definition structured {T} (this : Result T) : bool :=
  match this with
  | Failure (EError _) => true
  | _ => false
  end.

(** ** The callers of the library: the README, the doc comments, the tests *)

(** [void]: the type whose only value is [undefined]. *)
Definition Void : Type := option Empty_set.

(** The examples of [README.md]. *)
Module Readme.

(** Handling a Result by hand:
    [if (!result.ok) { throw result.error; }] and then [result.data]. *)
Definition manual {L T} (result : Result T) : M L T :=
  match result with
  | Failure error => throw (to_value error)
  | Success data => ret data
  end.

(** [mayFail]. *)
Definition mayFail {L} (isFailed : bool) : M L (Result Z) :=
  if isFailed
  then let! e := new_Error "Function failed" in Main.Err (EError e)
  else Main.Ok 123%Z.

(** [getStatusCode(statusCode)], on an integer status code. *)
Definition getStatusCode {L} (statusCode : Z) : M L (Result Z) :=
  if (200 <? statusCode)%Z && (statusCode <? 300)%Z
  then Main.Ok statusCode
  else Main.Err (EString "Invalide status code").

(** [obtainStatus], with [response.statusCode] as an argument. *)
Definition obtainStatus {L} (response_statusCode : Z) : M L Z :=
  let! r := getStatusCode response_statusCode in
  Main.or r 404%Z.

(** [readLocalStorage]; [localStorage.getItem(key)] is the string stored
    under [key], or [null] when there is none, and [null] is falsy like
    [undefined]. *)
Definition readLocalStorage {L} (localStorage : gmap string string)
    (key : string) : M L (Result string) :=
  let data := localStorage !! key in
  match data with
  | Some s => if negb (truthy data) then Main.Err0 else Main.Ok s
  | None => Main.Err0
  end.

End Readme.

(** The example of the doc comments of [lib/types.ts] and of the earlier
    README, where the status code is drawn at random. *)
Module Docs.

(** [getStatusCode]; [random100] is the value of
    [Math.floor(Math.random() * 100)]. *)
Definition getStatusCode {L} (random100 : Z) : M L (Result Z) :=
  let statusCode := random100 in
  if (200 <? statusCode)%Z && (statusCode <? 300)%Z
  then Main.Ok statusCode
  else if (statusCode <? 200)%Z
       then Main.Err (EString "Low")
       else Main.Err (EString "High").

(** The callback of [obtainStatus]:
    [(error) => { if (error === "Low") { return 0; } return 1000; }]. *)
Definition statusOfError {L} (error : ErrType) : M L Z :=
  match error with
  | EString s => if String.eqb s "Low" then ret 0%Z else ret 1000%Z
  | _ => ret 1000%Z
  end.

(** [obtainStatus]: [getStatusCode().else(...)]. *)
Definition obtainStatus {L} (random100 : Z) : M L Z :=
  let! r := getStatusCode random100 in
  Main.elseDo r statusOfError.

End Docs.

(** The functions of the test suite. *)
Module Tests.

Section ToNumber.
(** The numbers of JavaScript with [Number(str)] and [isNaN]. *)
Context {num : Type} (Number : string → num) (isNaN : num → bool).

(** [toNumber]. *)
Definition toNumber {L} (str : string) : M L (Result num) :=
  let parseResult := Number str in
  if isNaN parseResult
  then let! e := new_Error ("Couldn't convert " ++ str ++ " to number") in
       Main.Err (EError e)
  else Main.Ok parseResult.

End ToNumber.

(** [getEmptyResult]. *)
Definition getEmptyResult {L} (flag : bool) : M L (Result Void) :=
  if negb flag then Main.Err0 else Main.Ok0.

(** [enum ErrorType { A, B, C }]. *)
Inductive ErrorType : Type := A | B | C.

Definition ErrorType_value (type : ErrorType) : Z :=
  match type with
  | A => 0
  | B => 1
  | C => 2
  end.

(** [new CustomError(type)]: [super()] without a message makes an object
    with no own [message], then [this.errorType = type]. *)
Definition new_CustomError {md : Mode} {L} (type : ErrorType) : M L loc :=
  let! this := alloc (mkObj "CustomError" ∅ ∅ true) in
  set_prop this "errorType" (VNum (ErrorType_value type)) >>>
  ret this.

(** The getter [type] of the [CustomError] at [l]. *)
Definition CustomError_type (h : gmap loc Obj) (l : loc) : option Value :=
  match h !! l with
  | Some o => props o !! "errorType"
  | None => None
  end.

(** [getCustomError]. *)
Definition getCustomError {md : Mode} {L} (type : ErrorType)
    : M L (Result Void) :=
  let! e := new_CustomError type in
  Main.Err (EError e).

End Tests.

(** The message of an [Error] after [throw(message)]: the override when it
    is given and not empty, else the message the [Error] had. *)
Definition override_or (message : option string) (s : string) : string :=
  match nonempty message with
  | Some m => m
  | None => s
  end.

(** ** Basic facts *)

Lemma truthy_nonempty (x : option string) :
  truthy x = true ↔ ∃ s, x = Some s ∧ s ≠ "".
Proof.
  destruct x as [[|a s]|]; simpl; split.
  - discriminate.
  - intros (s & Hs & Hne). by simplify_eq.
  - eauto.
  - done.
  - discriminate.
  - by intros (s & Hs & _).
Qed.

Lemma lor_resolved (message : option string) (error : ErrType) :
  lor_str (lor_opt message (as_string error)) Main.defaultMessage
  = resolved_message message error.
Proof.
  destruct message as [[|a m]|]; destruct error as [|[|b s]|l]; reflexivity.
Qed.

Lemma fresh_unused {L} (w : World L) : heap w !! fresh (dom (heap w)) = None.
Proof. apply not_elem_of_dom, is_fresh. Qed.

Lemma typeof_plain (error : ErrType) :
  typeof error = "string" ∨ typeof error = "undefined" ↔
  ∀ l, error ≠ EError l.
Proof.
  destruct error; simpl; split; try done; eauto.
  - intros [?|?]; discriminate.
  - intros H. by destruct (H l).
Qed.

Lemma message_at_Error (h : gmap loc Obj) (l : loc) (s : string) :
  message_at (<[l := Error_obj s]> h) l = Some s.
Proof.
  unfold message_at. rewrite lookup_insert_eq. simpl.
  by rewrite lookup_singleton_eq.
Qed.

(** ** [throw] on a failure whose error is absent or a string *)

Section ThrowPlain.
Context {md : Mode} {L T : Type}.

(** The run of [throw] on such a failure. *)
Lemma throw_plain_run (error : ErrType) (message : option string)
    (w : World L) :
  (∀ l, error ≠ EError l) →
  Main.throwErr (T := T) (Failure error) message w
  = (Raised (VRef (fresh (dom (heap w)))),
     mkWorld (<[fresh (dom (heap w))
                := Error_obj (resolved_message message error)]> (heap w))
             (calls w)).
Proof.
  intros Hplain. destruct error as [|s|l].
  - unfold Main.throwErr, new_Error, alloc, bind, throw.
    by rewrite lor_resolved.
  - unfold Main.throwErr, new_Error, alloc, bind, throw.
    by rewrite lor_resolved.
  - by destruct (Hplain l).
Qed.

Lemma throw_plain_raised_message (error : ErrType) (message : option string)
    (w : World L) :
  (∀ l, error ≠ EError l) →
  raised_message (Main.throwErr (T := T) (Failure error) message w)
  = Some (resolved_message message error).
Proof.
  intros Hplain. rewrite throw_plain_run by done.
  unfold raised_message. cbn [fst snd heap]. apply message_at_Error.
Qed.

(** C1, as amended. For a Failure whose error is [undefined] or a string,
    [throw] stores one new [Error] at a reference that was not in use and
    raises that reference; nothing else of the world changes. The message
    of the new [Error] is the override when one is given and is not the
    empty string, else the string error when there is one and it is not the
    empty string, else the fixed default text. *)
Theorem throw_plain_message (error : ErrType) (message : option string)
    (w : World L) :
  typeof error = "string" ∨ typeof error = "undefined" →
  ∃ l : loc,
    heap w !! l = None
    ∧ Main.throwErr (T := T) (Failure error) message w
      = (Raised (VRef l),
         mkWorld (<[l := Error_obj (resolved_message message error)]> (heap w))
                 (calls w))
    ∧ raised_message (Main.throwErr (T := T) (Failure error) message w)
      = Some (resolved_message message error).
Proof.
  intros Htype. pose proof (proj1 (typeof_plain error) Htype) as Hplain.
  exists (fresh (dom (heap w))).
  split; [apply fresh_unused|].
  split; [by apply throw_plain_run | by apply throw_plain_raised_message].
Qed.

End ThrowPlain.

Lemma throw_plain_message_witness :
  (typeof (EString "abc") = "string" ∨ typeof (EString "abc") = "undefined")
  ∧ ∃ l : loc,
      heap world0 !! l = None
      ∧ Main.throwErr (T := Z) (Failure (EString "abc"))
          (Some "My Custom Message") world0
        = (Raised (VRef l),
           mkWorld (<[l := Error_obj
                             (resolved_message (Some "My Custom Message")
                                               (EString "abc"))]>
                      (heap world0))
                   (calls world0))
      ∧ raised_message
          (Main.throwErr (T := Z) (Failure (EString "abc"))
             (Some "My Custom Message") world0)
        = Some (resolved_message (Some "My Custom Message") (EString "abc")).
Proof.
  split; [left; reflexivity|].
  apply (throw_plain_message (T := Z) (EString "abc")
           (Some "My Custom Message") world0).
  left; reflexivity.
Defined.

(** C1 as the specification words it fails when the override, or the
    string error, is the empty string: [Err("boom").throw("")] raises
    ["boom"], not the override, and [Err("").throw()] raises the default
    text, not the string error. *)
Lemma throw_plain_message_counterexample :
  raised_message
    (Main.throwErr (T := Z) (Failure (EString "boom")) (Some "") world0)
  = Some "boom"
  ∧ stated_message (Some "") (EString "boom") = ""
  ∧ raised_message
      (Main.throwErr (T := Z) (Failure (EString "boom")) (Some "") world0)
    ≠ Some (stated_message (Some "") (EString "boom"))
  ∧ raised_message
      (Main.throwErr (T := Z) (Failure (EString "")) None world0)
    = Some Main.defaultMessage
  ∧ raised_message
      (Main.throwErr (T := Z) (Failure (EString "")) None world0)
    ≠ Some (stated_message None (EString "")).
Proof.
  assert (raised_message
            (Main.throwErr (T := Z) (Failure (EString "boom")) (Some "") world0)
          = Some "boom") as H1 by (vm_compute; reflexivity).
  assert (raised_message
            (Main.throwErr (T := Z) (Failure (EString "")) None world0)
          = Some Main.defaultMessage) as H2 by (vm_compute; reflexivity).
  rewrite H1, H2. repeat split; discriminate.
Qed.

(** ** [throw] on a failure whose error is an [Error] object *)

Section ThrowStructured.
Context {md : Mode} {L T : Type}.

(** An override that is the empty string, or no override: the object is
    raised as it is and the world is left as it was. *)
Lemma throw_structured_falsy (l : loc) (message : option string)
    (w : World L) :
  truthy message = false →
  Main.throwErr (T := T) (Failure (EError l)) message w
  = (Raised (VRef l), w).
Proof.
  intros Hm. unfold Main.throwErr. rewrite Hm.
  by destruct message.
Qed.

(** A non-empty override: the run of [throw], by what the store holds at
    [l]. *)
Lemma throw_structured_run (l : loc) (m : string) (w : World L) :
  m ≠ "" →
  Main.throwErr (T := T) (Failure (EError l)) (Some m) w
  = match heap w !! l with
    | Some o =>
        if can_write o "message"
        then (Raised (VRef l),
              mkWorld (alter (set_prop_obj "message" (VStr m)) l (heap w))
                      (calls w))
        else match md with
             | Strict => (Raised VTypeError, w)
             | Sloppy => (Raised (VRef l), w)
             end
    | None => (Raised (VRef l), w)
    end.
Proof.
  intros Hm. unfold Main.throwErr.
  assert (truthy (Some m) = true) as -> by (apply truthy_nonempty; eauto).
  unfold bind, set_prop.
  destruct (heap w !! l) as [o|]; [|done].
  destruct (can_write o "message"); [done|]. by destruct md.
Qed.

(** A non-empty override on an object whose [message] can be written: the
    property is written, then the reference is raised. *)
Lemma throw_structured_truthy (l : loc) (o : Obj) (m : string)
    (w : World L) :
  heap w !! l = Some o →
  can_write o "message" = true →
  m ≠ "" →
  Main.throwErr (T := T) (Failure (EError l)) (Some m) w
  = (Raised (VRef l),
     mkWorld (alter (set_prop_obj "message" (VStr m)) l (heap w)) (calls w)).
Proof.
  intros Hl Hw Hm. rewrite throw_structured_run by done. by rewrite Hl, Hw.
Qed.

(** A non-empty override on an object whose [message] cannot be written:
    the world is left as it was; strict code raises a [TypeError] in place
    of the object, sloppy code raises the object as it is. *)
Lemma throw_structured_unwritable (l : loc) (o : Obj) (m : string)
    (w : World L) :
  heap w !! l = Some o →
  can_write o "message" = false →
  m ≠ "" →
  Main.throwErr (T := T) (Failure (EError l)) (Some m) w
  = (match md with
     | Strict => Raised VTypeError
     | Sloppy => Raised (VRef l)
     end, w).
Proof.
  intros Hl Hw Hm. rewrite throw_structured_run by done. rewrite Hl, Hw.
  by destruct md.
Qed.


End ThrowStructured.



(** ** [throw] on a success *)

(** C3. [Ok(v).throw(message)] returns [v] and leaves the world as it was,
    whatever the override. *)
Theorem throw_success_returns {md : Mode} {L T} (v : T)
    (message : option string)
    (w : World L) :
  Main.throwErr (Success v) message w = (Returned v, w)
  ∧ (let! r := Main.Ok v in Main.throwErr r message) w = (Returned v, w).
Proof. split; reflexivity. Qed.

(** ** [or] *)

(** C4. [or] returns the payload of a Success and the fallback of a
    Failure; it always returns, the world is left as it was, and on a
    Failure the call is the same whatever the error is. *)
Theorem or_payload_or_fallback {L T} (this : Result T) (v orValue : T)
    (e e' : ErrType) (w : World L) :
  Main.or (Success v) orValue w = (Returned v, w)
  ∧ Main.or (Failure e) orValue w = (Returned orValue, w)
  ∧ returns (Main.or this orValue w) = true
  ∧ (Main.or this orValue w).2 = w
  ∧ Main.or (L := L) (Failure e) orValue = Main.or (Failure e') orValue.
Proof. destruct this; repeat split. Qed.

(** ** [else] *)

(** C5. On a Success, [else] returns the payload and does not run the
    callback: a mock callback records no call. On a Failure, [else] is one
    run of the callback on the error: same outcome, same world, and a mock
    callback records exactly the one call, with the error. *)
Theorem else_runs_callback_once {L T} (v : T) (e : ErrType)
    (callback : ErrType → M L T)
    (impl : ErrType → gmap loc Obj → Outcome T * gmap loc Obj)
    (w : World L) (wm : World ErrType) :
  Main.elseDo (Success v) callback w = (Returned v, w)
  ∧ Main.elseDo (Failure e) callback w = callback e w
  ∧ Main.elseDo (Success v) (mockFn id impl) wm = (Returned v, wm)
  ∧ Main.elseDo (Failure e) (mockFn id impl) wm
    = ((impl e (heap wm)).1,
       mkWorld (impl e (heap wm)).2 (calls wm ++ [e])).
Proof.
  repeat split. unfold Main.elseDo, mockFn.
  by destruct (impl e (heap wm)).
Qed.

(** ** [and] *)

(** C6. On a Success, [and] is one run of the callback on the payload and
    returns nothing: a mock callback records exactly the one call, with the
    payload. On a Failure the callback is not run, the error is dropped and
    the world is left as it was. *)
Theorem and_runs_callback_once {L T B} (v : T) (e : ErrType)
    (callback : T → M L B)
    (impl : T → gmap loc Obj → Outcome B * gmap loc Obj)
    (w : World L) (wm : World T) :
  Main.and (Success v) callback w
  = (drop_result (callback v w).1, (callback v w).2)
  ∧ Main.and (Failure e) callback w = (Returned tt, w)
  ∧ Main.and (Success v) (mockFn id impl) wm
    = (drop_result (impl v (heap wm)).1,
       mkWorld (impl v (heap wm)).2 (calls wm ++ [v]))
  ∧ Main.and (Failure e) (mockFn id impl) wm = (Returned tt, wm).
Proof.
  repeat split.
  - unfold Main.and, bind. by destruct (callback v w) as [[u|x] w'].
  - unfold Main.and, bind, mockFn.
    by destruct (impl v (heap wm)) as [[u|x] h].
Qed.

(** ** [Ok] and [Err] *)

(** C7. [Ok(v)] returns a Result with [ok === true] whose [data] is [v];
    [Err(e)] returns a Result with [ok === false] whose [error] is [e] (for
    an [Error] object, the same reference). Both always return and leave
    the world as it was. Without an argument the payload is [undefined]. *)
Theorem constructors_wrap {L T} (v : T) (e : ErrType) (w : World L) :
  (∃ r, Main.Ok v w = (Returned r, w)
        ∧ ok r = true ∧ data r = Some v ∧ error r = None)
  ∧ (∃ r, Main.Err (T := T) e w = (Returned r, w)
          ∧ ok r = false ∧ error r = Some e ∧ data r = None)
  ∧ (∃ r, Main.Ok0 (T := T) w = (Returned r, w)
          ∧ ok r = true ∧ data r = Some None)
  ∧ (∃ r, Main.Err0 (T := T) w = (Returned r, w)
          ∧ ok r = false ∧ error r = Some EUndefined).
Proof.
  split; [|split; [|split]]; eexists; (split; [reflexivity|]); done.
Qed.

(** ** Which accessors can raise *)

Lemma throw_raises_iff_failure {md : Mode} {L T} (this : Result T)
    (message : option string) (w : World L) :
  raises (Main.throwErr this message w) = negb (ok this).
Proof.
  destruct this as [v|[|s|l]]; try reflexivity.
  destruct (truthy message) eqn:Hm.
  - apply truthy_nonempty in Hm as (m & -> & Hm).
    rewrite throw_structured_run by done.
    destruct (heap w !! l) as [o|]; [|done].
    destruct (can_write o "message"); [done|]. by destruct md.
  - by rewrite throw_structured_falsy.
Qed.

(** C8. With callbacks that do not raise, [or], [else] and [and] return on
    every Result; [throw] raises exactly on the Failures. *)
Theorem only_throw_raises {md : Mode} {L T} (this : Result T) (orValue : T)
    (cbElse : ErrType → M L T) (cbAnd : T → M L unit)
    (message : option string) (w : World L) :
  never_raises cbElse →
  never_raises cbAnd →
  returns (Main.or this orValue w) = true
  ∧ returns (Main.elseDo this cbElse w) = true
  ∧ returns (Main.and this cbAnd w) = true
  ∧ raises (Main.throwErr this message w) = negb (ok this).
Proof.
  intros Helse Hand. repeat split.
  - by destruct this.
  - destruct this as [v|e]; [done|]. apply Helse.
  - destruct this as [v|e]; [|done].
    specialize (Hand v w). unfold Main.and, bind.
    by destruct (cbAnd v w) as [[u|x] w'].
  - apply throw_raises_iff_failure.
Qed.

Lemma only_throw_raises_witness :
  never_raises (L := ErrType) (λ _ : ErrType, ret 100%Z)
  ∧ never_raises (L := ErrType) (λ _ : Z, ret tt)
  ∧ returns (Main.or (Failure (EString "abc")) 100%Z world0) = true
  ∧ returns (Main.elseDo (Failure (EString "abc")) (λ _, ret 100%Z) world0)
    = true
  ∧ returns (Main.and (T := Z) (Failure (EString "abc")) (λ _, ret tt) world0)
    = true
  ∧ raises (Main.throwErr (T := Z) (Failure (EString "abc")) None world0)
    = negb (ok (T := Z) (Failure (EString "abc"))).
Proof.
  split; [intros x w; reflexivity|]. split; [intros x w; reflexivity|].
  apply (only_throw_raises (Failure (EString "abc")) 100%Z
           (λ _, ret 100%Z) (λ _, ret tt) None world0).
  - intros x w; reflexivity.
  - intros x w; reflexivity.
Defined.

(** ** The empty string in [throw] *)

(** C9. In [throw] the empty string counts as absent: [Err("").throw()]
    runs as [Err().throw()] and raises the default text, and an override
    that is the empty string runs as no override, on every Result (so for
    a string error and for an [Error] object alike). *)
Theorem throw_empty_string_is_absent {md : Mode} {L T} (this : Result T)
    (s : string)
    (l : loc) (w : World L) :
  Main.throwErr (T := T) (Failure (EString "")) None w
  = Main.throwErr (Failure EUndefined) None w
  ∧ raised_message (Main.throwErr (T := T) (Failure (EString "")) None w)
    = Some Main.defaultMessage
  ∧ Main.throwErr (T := T) (Failure (EString s)) (Some "") w
    = Main.throwErr (Failure (EString s)) None w
  ∧ Main.throwErr (T := T) (Failure (EError l)) (Some "") w
    = Main.throwErr (Failure (EError l)) None w
  ∧ Main.throwErr this (Some "") w = Main.throwErr this None w.
Proof.
  split; [reflexivity|].
  split; [by rewrite throw_plain_raised_message|].
  split; [reflexivity|]. split; [reflexivity|].
  by destruct this as [v|[|s'|l']].
Qed.

(** ** The two versions of [throwErr] *)



(** ** The scenarios of the test suite *)

(** [getEmptyResult(false).throw()] raises the default text. *)
Example test_void_throw :
  raised_message ((let! r := Main.Err0 (T := unit) in Main.throwErr r None)
                    world0)
  = Some "There was an error! No specific error message was provided.".
Proof. vm_compute. reflexivity. Qed.

(** [getEmptyResult(false).throw("My Custom Message")]. *)
Example test_void_throw_custom :
  raised_message
    ((let! r := Main.Err0 (T := unit) in
      Main.throwErr r (Some "My Custom Message")) world0)
  = Some "My Custom Message".
Proof. vm_compute. reflexivity. Qed.

(** [getCustomError(ErrorType.B).throw("My Custom Message")] raises the
    [CustomError] itself, with its message overwritten and its type kept. *)
Example test_custom_error_throw_custom :
  (let! r := Main.Err (T := unit) (EError 1) in
   Main.throwErr r (Some "My Custom Message")) world2
  = (Raised (VRef 1),
     mkWorld {[ 1%positive := CustomError_obj "My Custom Message" 1;
                2%positive := Error_obj "other" ]} []).
Proof. vm_compute. reflexivity. Qed.

(** [toNumber("abc").or(100)] and [toNumber("123").or(100)]. *)
Example test_or :
  (let! r := Main.Err (EError 1) in Main.or r 100%Z) (world1 "nan")
  = (Returned 100%Z, world1 "nan")
  ∧ (let! r := Main.Ok 123%Z in Main.or r 100%Z) (world1 "nan")
    = (Returned 123%Z, world1 "nan").
Proof. split; reflexivity. Qed.

(** [toNumber("abc").and(mockFn)]: the mock is not called. *)
Example test_and_not_called :
  calls ((let! r := Main.Err (T := Z) (EError 1) in
          Main.and r (mockFn (L := Z) id (λ _ h, (Returned tt, h))))
           (mkWorld ∅ [])).2
  = [].
Proof. reflexivity. Qed.

(** ** What [throw] does to the store *)



Lemma resolved_message_nonempty (message : option string) (error : ErrType) :
  resolved_message message error ≠ "".
Proof.
  destruct message as [[|a m]|]; destruct error as [|[|b s]|l]; done.
Qed.



(** X2. The [Error] that [throw] makes for an absent or string error never
    has an empty message, whatever the override and the error are. *)
Theorem throw_plain_message_nonempty {md : Mode} {L T} (error : ErrType)
    (message : option string) (w : World L) :
  typeof error = "string" ∨ typeof error = "undefined" →
  ∃ s, raised_message (Main.throwErr (T := T) (Failure error) message w)
       = Some s
       ∧ s ≠ "".
Proof.
  intros Htype. pose proof (proj1 (typeof_plain error) Htype) as Hplain.
  exists (resolved_message message error).
  split; [by apply throw_plain_raised_message|].
  apply resolved_message_nonempty.
Qed.

Lemma throw_plain_message_nonempty_witness :
  (typeof (EString "") = "string" ∨ typeof (EString "") = "undefined")
  ∧ ∃ s, raised_message
           (Main.throwErr (T := Z) (Failure (EString "")) (Some "") world0)
         = Some s
         ∧ s ≠ "".
Proof.
  split; [left; reflexivity|].
  apply (throw_plain_message_nonempty (T := Z) (EString "") (Some "") world0).
  left; reflexivity.
Defined.





(** X5. Handling a Result by hand, as the README does, is the same as
    [throw()] exactly on a Success and on a Failure whose error is an
    [Error] object: for an absent or string error the hand-written code
    raises the bare value, [throw()] a new [Error]. *)
Theorem manual_vs_throw {md : Mode} {L T} (this : Result T) (w : World L) :
  Readme.manual this w = Main.throwErr this None w
  ↔ ok this = true ∨ structured this = true.
Proof.
  destruct this as [v|[|s|l]].
  - split; [by left|done].
  - rewrite throw_plain_run by done. split; [done|]. by intros [?|?].
  - rewrite throw_plain_run by done. split; [done|]. by intros [?|?].
  - rewrite throw_structured_falsy by done. split; [by right|done].
Qed.



(** ** The callers *)

(** [Err(new Error(s)).throw(message)], the pattern of [mayFail] and
    [toNumber]: the new [Error] is the one raised, with the override as
    its message when there is a non-empty one. *)
Lemma throw_new_Error {md : Mode} {L T} (s : string) (message : option string)
    (w : World L) :
  (let! e := new_Error s in
   let! r := Main.Err (T := T) (EError e) in
   Main.throwErr r message) w
  = (Raised (VRef (fresh (dom (heap w)))),
     mkWorld (<[fresh (dom (heap w)) := Error_obj (override_or message s)]>
                (heap w))
             (calls w)).
Proof.
  unfold new_Error, alloc, Main.Err, bind, ret.
  destruct (truthy message) eqn:Hm.
  - apply truthy_nonempty in Hm as (m & -> & Hm).
    rewrite (throw_structured_truthy _ (Error_obj s));
      [|by cbn [heap]; rewrite lookup_insert_eq|done|done].
    cbn [heap calls]. rewrite alter_insert_eq.
    replace (override_or (Some m) s) with m by (by destruct m).
    unfold set_prop_obj, Error_obj. simpl. by rewrite insert_singleton_eq.
  - rewrite throw_structured_falsy by done.
    by destruct message as [[|a m]|].
Qed.

(** X7. [mayFail(isFailed).throw(message)] returns 123 exactly when
    [isFailed] is false; otherwise it raises the new [Error], whose message
    is the override when one is given and not empty and ["Function failed"]
    otherwise. *)
Theorem mayFail_throw {md : Mode} {L} (isFailed : bool)
    (message : option string)
    (w : World L) :
  (let! r := Readme.mayFail isFailed in Main.throwErr r message) w
  = if isFailed
    then (Raised (VRef (fresh (dom (heap w)))),
          mkWorld (<[fresh (dom (heap w))
                     := Error_obj (override_or message "Function failed")]>
                     (heap w))
                  (calls w))
    else (Returned 123%Z, w).
Proof.
  destruct isFailed; [|done].
  rewrite <- (throw_new_Error (T := Z)).
  unfold Readme.mayFail, bind.
  by destruct (new_Error "Function failed" w) as [[e|x] w'].
Qed.

(** X8. [obtainStatus] of the README returns the status code when it is
    between 201 and 299 and 404 otherwise, and leaves the world as it
    was. *)
Theorem obtainStatus_range {L} (statusCode : Z) (w : World L) :
  ∃ r, Readme.obtainStatus statusCode w = (Returned r, w)
       ∧ ((201 ≤ r ≤ 299 ∧ r = statusCode)
          ∨ (r = 404 ∧ ¬ (201 ≤ statusCode ≤ 299)))%Z.
Proof.
  unfold Readme.obtainStatus, Readme.getStatusCode, bind.
  destruct (Z.ltb_spec 200 statusCode); destruct (Z.ltb_spec statusCode 300);
    simpl; eexists; (split; [reflexivity|]); lia.
Qed.

(** X9. [readLocalStorage] succeeds exactly on a key that holds a
    non-empty string, with that string as payload, and leaves the world as
    it was: a key that holds the empty string reads as a key that is not
    there, [Err()]. *)
Theorem readLocalStorage_nonempty {L} (localStorage : gmap string string)
    (key : string) (w : World L) :
  Readme.readLocalStorage localStorage key w
  = (Returned match nonempty (localStorage !! key) with
              | Some s => Success s
              | None => Failure EUndefined
              end, w)
  ∧ Readme.readLocalStorage (<[key := ""]> localStorage) key w
    = Readme.readLocalStorage (delete key localStorage) key w.
Proof.
  split.
  - unfold Readme.readLocalStorage.
    by destruct (localStorage !! key) as [[|a s]|].
  - unfold Readme.readLocalStorage.
    by rewrite lookup_insert_eq, lookup_delete_eq.
Qed.

(** X10. With a status code drawn by [Math.floor(Math.random() * 100)],
    which is an integer from 0 to 99, [getStatusCode] never succeeds and
    never answers ["High"]: it always returns [Err("Low")], and
    [obtainStatus] always returns 0. *)
Theorem random_status_always_low {L} (random100 : Z) (w : World L) :
  (0 ≤ random100 < 100)%Z →
  Docs.getStatusCode random100 w = (Returned (Failure (EString "Low")), w)
  ∧ Docs.obtainStatus random100 w = (Returned 0%Z, w).
Proof.
  intros Hr. unfold Docs.obtainStatus, Docs.getStatusCode, bind.
  destruct (Z.ltb_spec 200 random100); [lia|].
  destruct (Z.ltb_spec random100 200); [|lia].
  done.
Qed.

Lemma random_status_always_low_witness :
  (0 ≤ 42 < 100)%Z
  ∧ Docs.getStatusCode 42%Z world0 = (Returned (Failure (EString "Low")), world0)
  ∧ Docs.obtainStatus 42%Z world0 = (Returned 0%Z, world0).
Proof.
  split; [lia|].
  apply (random_status_always_low 42%Z world0). lia.
Defined.

Section ToNumberFacts.
Context {num : Type} (Number : string → num) (isNaN : num → bool).

(** X11. [toNumber(str).throw(message)] returns [Number(str)] when it is
    not [NaN]; otherwise it raises the [Error] that [toNumber] made, whose
    message is the override when one is given and not empty and
    ["Couldn't convert <str> to number"] otherwise. [toNumber(str).or(d)]
    returns [Number(str)] or, when it is [NaN], [d]. *)
Theorem toNumber_throw_or {md : Mode} {L} (str : string)
    (message : option string)
    (d : num) (w : World L) :
  (let! r := Tests.toNumber Number isNaN str in Main.throwErr r message) w
  = (if isNaN (Number str)
     then (Raised (VRef (fresh (dom (heap w)))),
           mkWorld (<[fresh (dom (heap w))
                      := Error_obj
                           (override_or message
                              ("Couldn't convert " ++ str ++ " to number"))]>
                      (heap w))
                   (calls w))
     else (Returned (Number str), w))
  ∧ ((let! r := Tests.toNumber Number isNaN str in Main.or r d) w).1
    = Returned (if isNaN (Number str) then d else Number str).
Proof.
  split.
  - destruct (isNaN (Number str)) eqn:Hnan.
    + rewrite <- (throw_new_Error (T := num)).
      unfold Tests.toNumber, bind. rewrite Hnan.
      by destruct (new_Error _ w) as [[e|x] w'].
    + unfold Tests.toNumber, bind. by rewrite Hnan.
  - unfold Tests.toNumber, bind.
    by destruct (isNaN (Number str)).
Qed.

End ToNumberFacts.

(** X12. [getEmptyResult(flag).throw(message)] returns [undefined] when
    [flag] is true; otherwise it raises a new [Error] whose message is the
    override when one is given and not empty and the default text
    otherwise. *)
Theorem getEmptyResult_throw {md : Mode} {L} (flag : bool)
    (message : option string)
    (w : World L) :
  (let! r := Tests.getEmptyResult flag in Main.throwErr r message) w
  = if flag
    then (Returned None, w)
    else (Raised (VRef (fresh (dom (heap w)))),
          mkWorld (<[fresh (dom (heap w))
                     := Error_obj (override_or message Main.defaultMessage)]>
                     (heap w))
                  (calls w)).
Proof.
  destruct flag; [done|].
  unfold Tests.getEmptyResult, Main.Err0, Main.Err, bind, ret.
  cbn [negb]. rewrite throw_plain_run by done.
  by destruct message as [[|a m]|].
Qed.

(** [new CustomError(type)]: one new object, holding the type. *)
Lemma new_CustomError_run {md : Mode} {L} (type : Tests.ErrorType)
    (w : World L) :
  Tests.new_CustomError type w
  = (Returned (fresh (dom (heap w))),
     mkWorld (<[fresh (dom (heap w))
                := mkObj "CustomError"
                     {[ "errorType" := VNum (Tests.ErrorType_value type) ]}
                     ∅ true]> (heap w))
             (calls w)).
Proof.
  unfold Tests.new_CustomError, alloc, set_prop, bind, ret. cbn [heap calls].
  rewrite lookup_insert_eq.
  replace (can_write (mkObj "CustomError" ∅ ∅ true) "errorType")
    with true by done.
  rewrite alter_insert_eq. unfold set_prop_obj. simpl.
  by rewrite insert_empty.
Qed.

(** X13. [getCustomError(type).throw(message)] raises the [CustomError] it
    has just made, at a reference that was not in use: its [type] is still
    [type], its own message is the override when one is given and not
    empty and is absent otherwise, and every other object is as before. *)
Theorem getCustomError_throw {md : Mode} {L} (type : Tests.ErrorType)
    (message : option string) (w : World L) :
  ∃ w',
    (let! r := Tests.getCustomError type in Main.throwErr r message) w
    = (Raised (VRef (fresh (dom (heap w)))), w')
    ∧ heap w !! fresh (dom (heap w)) = None
    ∧ Tests.CustomError_type (heap w') (fresh (dom (heap w)))
      = Some (VNum (Tests.ErrorType_value type))
    ∧ message_at (heap w') (fresh (dom (heap w))) = nonempty message
    ∧ (∀ l, l ≠ fresh (dom (heap w)) → heap w' !! l = heap w !! l)
    ∧ calls w' = calls w.
Proof.
  unfold Tests.getCustomError, bind. rewrite new_CustomError_run.
  unfold Main.Err, ret.
  set (l := fresh (dom (heap w))).
  set (o := mkObj "CustomError"
              {[ "errorType" := VNum (Tests.ErrorType_value type) ]} ∅ true).
  assert (heap w !! l = None) as Hfresh by apply fresh_unused.
  destruct (truthy message) eqn:Hm.
  - apply truthy_nonempty in Hm as (m & -> & Hm).
    rewrite (throw_structured_truthy l o);
      [|by cbn [heap]; rewrite lookup_insert_eq|done|done].
    cbn [heap calls]. rewrite alter_insert_eq.
    eexists. split; [reflexivity|]. cbn [heap calls].
    unfold Tests.CustomError_type, message_at.
    rewrite lookup_insert_eq. simpl.
    rewrite lookup_insert_eq.
    rewrite lookup_insert_ne by done. rewrite lookup_singleton_eq.
    split; [done|]. split; [done|].
    split; [by destruct m|]. split; [|done].
    intros l' Hl'. by rewrite lookup_insert_ne.
  - rewrite throw_structured_falsy by done.
    eexists. split; [reflexivity|]. cbn [heap calls].
    unfold Tests.CustomError_type, message_at.
    rewrite lookup_insert_eq. simpl.
    rewrite lookup_singleton_eq.
    rewrite lookup_singleton_ne by done.
    split; [done|]. split; [done|].
    split; [by destruct message as [[|a m]|]|]. split; [|done].
    intros l' Hl'. by rewrite lookup_insert_ne.
Qed.
